(** * PreferedNetworkRegistry: the on-chain registry and its client

    A shallow embedding of
    - [hardhat/contracts/PreferedNetworkRegistry.sol] (module [Contract]),
    - the JavaScript conversion [Number(bigint)] the client applies to a
      stored preference (module [Js]),
    - [client/src/PreferedNetworkRegistry.ts] (modules [Client] and
      [ClientV1]),
    followed by the properties of the specification. *)

From Stdlib Require Import ZArith Lia.
From stdpp Require Import gmap strings list.

Local Open Scope Z_scope.

(** ** The registry contract *)

Module Contract.

(** A Solidity [address] is a 160-bit value and a [uint] a 256-bit one.
    The contract performs no arithmetic on either, so nothing wraps. *)
Definition address : Type := N.
Definition uint : Type := Z.
Definition uint_max : Z := 2 ^ 256 - 1.

(** [event NetworkPreferenceSet(address indexed user, uint network)] *)
Inductive Event : Type :=
| NetworkPreferenceSet (user : address) (network : uint).

(** The contract's storage, [mapping(address => uint) networkPreferences],
    together with the log of the events it has emitted. *)
Record Registry : Type := mkRegistry {
  networkPreferences : gmap N Z;
  emitted : list Event
}.

(** A freshly deployed contract. *)
Definition deployed : Registry :=
  {| networkPreferences := ∅; emitted := [] |}.

(** Reading a Solidity mapping: a key never written reads as zero. *)
Definition slot (m : gmap N Z) (a : address) : uint := default 0 (m !! a).

Inductive outcome : Type :=
| Success (st : Registry)
| Revert (reason : string).

(** [function setPreferredNetwork(uint _network) public] *)
Definition setPreferredNetwork
    (msg_sender : address) (_network : uint) (st : Registry) : outcome :=
  if 0 <? _network then
    Success
      {| networkPreferences := <[msg_sender := _network]> (networkPreferences st);
         emitted := emitted st ++ [NetworkPreferenceSet msg_sender _network] |}
  else Revert "Invalid network ID".

(** [function getPreferredNetwork(address _user) public view returns (uint)] *)
Definition getPreferredNetwork (_user : address) (st : Registry) : uint :=
  slot (networkPreferences st) _user.

(** A transaction sent to the contract: the only state-changing entry
    point is the setter.  A reverted transaction leaves the state as it
    was. *)
Record Tx : Type := mkTx { tx_sender : address; tx_network : uint }.

Definition apply_tx (st : Registry) (tx : Tx) : Registry :=
  match setPreferredNetwork (tx_sender tx) (tx_network tx) st with
  | Success st' => st'
  | Revert _ => st
  end.

Definition run (txs : list Tx) (st : Registry) : Registry :=
  fold_left apply_tx txs st.

(** Whether a transaction is a successful call of the setter by [a]. *)
Definition sets (a : address) (tx : Tx) : bool :=
  bool_decide (tx_sender tx = a) && (0 <? tx_network tx).

End Contract.

(** ** JavaScript values the client relies on *)

Module Js.

(** A value that may be missing: an optional property that was left out
    reads as [undefined]; [null] is a distinct value. *)
Inductive optional (A : Type) : Type :=
| undefined
| null
| defined (a : A).
Arguments undefined {A}.
Arguments null {A}.
Arguments defined {A} a.

(** [v !== null] *)
Definition strict_not_null {A} (v : optional A) : bool :=
  match v with null => false | _ => true end.

(** Truthiness of [v] in [if (v)], for [v] missing or an object. *)
Definition truthy {A} (v : optional A) : bool :=
  match v with defined _ => true | _ => false end.

(** [base?.field] *)
Definition chain {A B} (base : optional A) (field : A -> optional B) : optional B :=
  match base with defined a => field a | _ => undefined end.

(** [Number(n)] for a bigint [n]: the double nearest to [n], ties to the
    even significand.  A double carries 53 significant bits, so with
    [e] the number of bits of [|n|] beyond the 53rd, the result is
    [|n|] cut to a multiple of [2^e] and rounded.  The result is finite
    (and therefore an integer) for [|n| < 2^1024 - 2^970], which covers
    every [uint] of the contract. *)
Definition Number (n : Z) : Z :=
  let a := Z.abs n in
  let e := Z.log2 a - 52 in
  if e <=? 0 then n
  else
    let q := Z.shiftr a e in
    let r := Z.land a (Z.ones e) in
    let half := Z.shiftl 1 (e - 1) in
    let q' := if (half <? r) || ((r =? half) && Z.odd q) then q + 1 else q in
    Z.sgn n * Z.shiftl q' e.

Definition MAX_SAFE_INTEGER : Z := 2 ^ 53 - 1.

End Js.

(** ** The client *)

Module Client.
Import Contract.

(** A callback is a function value; only its identity matters here. *)
Definition Callback : Type := nat.

Record Callbacks : Type := mkCallbacks {
  onPreferredNetworkSet : Js.optional Callback;
  onPaymentApproved : Js.optional Callback;
  onNetworkChanged : Js.optional Callback;
  onContractEvents : Js.optional Callback
}.

(** The [public] and [wallet] fields of the configuration are handed to
    the chain-access library unread and are left out. *)
Record Configuration : Type := mkConfiguration {
  callbacks : Js.optional Callbacks
}.

Inductive Error : Type :=
| ContractRevert (reason : string)
| TransportError (detail : string)
| AccountNotFound
| InvalidAddress
| IntegerOutOfRange
| ReceiptNotFound
| JsError (message : string).

(** The calls the client issues against its collaborators: the wallet
    client, the public client and the bound contract handle. *)
Inductive Call : Type :=
| wallet_getAddresses_
| contract_read_getPreferredNetwork_ (args : option address)
| contract_write_setPreferredNetwork_
    (network : Z) (account : option address) (onApproved : Js.optional Callback)
| publicClient_getEnsAddress_ (name : string)
| wallet_switchChain_ (id : Z)
| wallet_sendTransaction_ (account : option address) (to : address) (value : Z)
| publicClient_waitForTransactionReceipt_ (hash : N)
| publicClient_watchContractEvent_ (onLogs : Js.optional Callback)
| unwatch_ (subscription : nat).

Inductive Transaction : Type :=
| Transfer (from to : address) (value : Z)
| SetPreferredNetwork (from : address) (network : Z).

Record TransactionReceipt : Type := mkReceipt {
  transactionHash : N;
  transaction : Transaction
}.

(** Everything a client instance acts on.  [registry], [ens], [accounts],
    [chainId], [transactions] and [subscriptions] belong to the
    collaborators; [watchers] is the instance's own array; [calls] is the
    record of the calls issued so far; [faults] says, from the calls
    issued so far (the last one being the request in flight), whether the
    transport fails that request, and with what. *)
Record World : Type := mkWorld {
  registry : Registry;
  ens : gmap string N;
  accounts : list address;
  chainId : Z;
  transactions : list Transaction;
  subscriptions : list nat;
  opened : nat;
  watchers : list nat;
  calls : list Call;
  faults : list Call -> option Error
}.

Definition set_chainId (v : Z) (w : World) : World :=
  mkWorld (registry w) (ens w) (accounts w) v (transactions w)
    (subscriptions w) (opened w) (watchers w) (calls w) (faults w).
Definition set_transactions (v : list Transaction) (w : World) : World :=
  mkWorld (registry w) (ens w) (accounts w) (chainId w) v
    (subscriptions w) (opened w) (watchers w) (calls w) (faults w).
Definition set_subscriptions (v : list nat) (w : World) : World :=
  mkWorld (registry w) (ens w) (accounts w) (chainId w) (transactions w)
    v (opened w) (watchers w) (calls w) (faults w).
Definition set_opened (v : nat) (w : World) : World :=
  mkWorld (registry w) (ens w) (accounts w) (chainId w) (transactions w)
    (subscriptions w) v (watchers w) (calls w) (faults w).
Definition set_watchers (v : list nat) (w : World) : World :=
  mkWorld (registry w) (ens w) (accounts w) (chainId w) (transactions w)
    (subscriptions w) (opened w) v (calls w) (faults w).
Definition set_calls (v : list Call) (w : World) : World :=
  mkWorld (registry w) (ens w) (accounts w) (chainId w) (transactions w)
    (subscriptions w) (opened w) (watchers w) v (faults w).

(** *** A state and error monad for the asynchronous functions

    Every function of the client awaits each step before the next, so a
    function is a sequence of steps over the world that stops at the
    first rejection. *)
Inductive result (A : Type) : Type :=
| Ok (a : A)
| Err (e : Error).
Arguments Ok {A} a.
Arguments Err {A} e.

Definition M (A : Type) : Type := World -> result A * World.

Definition ret {A} (a : A) : M A := fun w => (Ok a, w).
Definition throw {A} (e : Error) : M A := fun w => (Err e, w).
Definition bind {A B} (m : M A) (k : A -> M B) : M B :=
  fun w => match m w with
           | (Ok a, w') => k a w'
           | (Err e, w') => (Err e, w')
           end.
Definition gets {A} (f : World -> A) : M A := fun w => (Ok (f w), w).
Definition modify (f : World -> World) : M unit := fun w => (Ok tt, f w).

Notation "x <- m ;; k" := (bind m (fun x => k))
  (at level 100, m at next level, right associativity).
Notation "m ;;; k" := (bind m (fun _ => k))
  (at level 100, right associativity).

(** [array.forEach(f)] with an [f] that leaves the array alone. *)
Fixpoint forEach {A} (l : list A) (f : A -> M unit) : M unit :=
  match l with
  | [] => ret tt
  | x :: l' => f x ;;; forEach l' f
  end.

(** *** The collaborators *)

(** The client calls a collaborator. *)
Definition issue (c : Call) : M unit :=
  modify (fun w => set_calls (calls w ++ [c]) w).

(** The request goes over the transport, which may fail it. *)
Definition transport : M unit :=
  fun w => match faults w (calls w) with
           | Some e => (Err e, w)
           | None => (Ok tt, w)
           end.

(** [wallet.getAddresses()] *)
Definition wallet_getAddresses : M (list address) :=
  issue wallet_getAddresses_ ;;; transport ;;; gets accounts.

(** [contract.read.getPreferredNetwork([a])]: a call of the contract's
    getter.  A missing address cannot be encoded. *)
Definition contract_read_getPreferredNetwork (a : option address) : M Z :=
  issue (contract_read_getPreferredNetwork_ a) ;;;
  match a with
  | None => throw InvalidAddress
  | Some user =>
      transport ;;; gets (fun w => Contract.getPreferredNetwork user (registry w))
  end.

(** [contract.write.setPreferredNetwork([network], {account, onApproved})]:
    submits a transaction from [account] calling the contract's setter and
    returns its hash, without waiting for the chain to include it: the
    registry is as before when the hash is returned ([confirm] below is
    the inclusion).  The call is first tried against the current state,
    and a revert there surfaces as the failure of the call, with no
    transaction submitted. *)
Definition contract_write_setPreferredNetwork
    (network : Z) (account : option address) (onApproved : Js.optional Callback) : M N :=
  issue (contract_write_setPreferredNetwork_ network account onApproved) ;;;
  match account with
  | None => throw AccountNotFound
  | Some sender =>
      if (0 <=? network) && (network <=? uint_max) then
        transport ;;;
        (fun w =>
           match Contract.setPreferredNetwork sender network (registry w) with
           | Revert reason => (Err (ContractRevert reason), w)
           | Success _ =>
               (Ok (N.of_nat (length (transactions w))),
                set_transactions
                  (transactions w ++ [SetPreferredNetwork sender network]) w)
           end)
      else throw IntegerOutOfRange
  end.


(** [publicClient.getEnsAddress({name})]: [None] is JavaScript's [null]. *)
Definition publicClient_getEnsAddress (name : string) : M (option address) :=
  issue (publicClient_getEnsAddress_ name) ;;; transport ;;;
  gets (fun w => ens w !! name).

(** [wallet.switchChain({id})]: the id is written in hexadecimal for the
    request, which is refused, before anything is sent, for a number
    outside [0 .. Number.MAX_SAFE_INTEGER]. *)
Definition wallet_switchChain (id : Z) : M unit :=
  issue (wallet_switchChain_ id) ;;;
  if (0 <=? id) && (id <=? Js.MAX_SAFE_INTEGER) then
    transport ;;; modify (set_chainId id)
  else throw IntegerOutOfRange.

(** [wallet.sendTransaction({account, to, value})]: the hash of a
    transaction is its position among the transactions sent. *)
Definition wallet_sendTransaction
    (account : option address) (to : address) (value : Z) : M N :=
  issue (wallet_sendTransaction_ account to value) ;;;
  match account with
  | None => throw AccountNotFound
  | Some sender =>
      transport ;;;
      (fun w =>
         (Ok (N.of_nat (length (transactions w))),
          set_transactions (transactions w ++ [Transfer sender to value]) w))
  end.

(** [publicClient.waitForTransactionReceipt({hash})] *)
Definition publicClient_waitForTransactionReceipt (hash : N) : M TransactionReceipt :=
  issue (publicClient_waitForTransactionReceipt_ hash) ;;; transport ;;;
  (fun w =>
     match transactions w !! N.to_nat hash with
     | Some t => (Ok (mkReceipt hash t), w)
     | None => (Err ReceiptNotFound, w)
     end).

(** [publicClient.watchContractEvent({address, abi, onLogs})]: opens a
    subscription and returns its cancellation function, here the number
    of the subscription.  It returns at once, before any request. *)
Definition publicClient_watchContractEvent (onLogs : Js.optional Callback) : M nat :=
  issue (publicClient_watchContractEvent_ onLogs) ;;;
  (fun w =>
     (Ok (opened w),
      set_opened (S (opened w))
        (set_subscriptions (subscriptions w ++ [opened w]) w))).

(** Calling the cancellation function of subscription [h]. *)
Definition unwatch (h : nat) : M unit :=
  issue (unwatch_ h) ;;;
  modify (fun w =>
    set_subscriptions (filter (fun s => s <> h) (subscriptions w)) w).

(** [normalize] of [viem/ens].  The client applies it to one literal,
    which is already in normal form. *)
Definition normalize (name : string) : string := name.

(** *** The functions of the client *)

Section WithConfiguration.
Variable configuration : Configuration.

Definition getCurrentAddress : M (option address) :=
  addresses <- wallet_getAddresses ;;
  ret (head addresses).

Definition getPreferredNetwork (address : Contract.address) : M Z :=
  contract_read_getPreferredNetwork (Some address).

Definition getPreferedNetworkFromENS (ens : string) : M (option Z) :=
  ensAddress <- publicClient_getEnsAddress (normalize "wevm.eth") ;;
  match ensAddress with
  | None => ret None
  | Some a => network <- getPreferredNetwork a ;; ret (Some network)
  end.

Definition resolveCurrentPreferredNetwork : M Z :=
  account <- getCurrentAddress ;;
  contract_read_getPreferredNetwork account.

Definition switchToPreferredNetwork : M unit :=
  account <- getCurrentAddress ;;
  network <- contract_read_getPreferredNetwork account ;;
  wallet_switchChain (Js.Number network).

Definition setPreferredNetwork (network : Z) : M N :=
  account <- getCurrentAddress ;;
  contract_write_setPreferredNetwork network account
    (Js.chain (callbacks configuration) onPreferredNetworkSet).

Definition payAddress (to : address) (value : Z) : M TransactionReceipt :=
  account <- getCurrentAddress ;;
  hash <- wallet_sendTransaction account to value ;;
  publicClient_waitForTransactionReceipt hash.

Definition payENSAddress (name : string) (value : Z) : M TransactionReceipt :=
  address <- publicClient_getEnsAddress name ;;
  match address with
  | None => throw (JsError ("Could not resolve address for ENS name: " ++ name))
  | Some a => payAddress a value
  end.

Definition payOnPreferedNetwork (address : Contract.address) (value : Z)
    : M TransactionReceipt :=
  recipientPreferredNetwork <- getPreferredNetwork address ;;
  wallet_switchChain (Js.Number recipientPreferredNetwork) ;;;
  payAddress address value.

Definition payENSOnPreferedNetwork (name : string) (value : Z)
    : M TransactionReceipt :=
  address <- publicClient_getEnsAddress name ;;
  match address with
  | None => throw (JsError ("Could not resolve address for ENS name: " ++ name))
  | Some a => payOnPreferedNetwork a value
  end.

Definition startContractEventListeners : M unit :=
  if Js.strict_not_null (Js.chain (callbacks configuration) onContractEvents) then
    h <- publicClient_watchContractEvent
           (Js.chain (callbacks configuration) onContractEvents) ;;
    modify (fun w => set_watchers (watchers w ++ [h]) w)
  else ret tt.

Definition removeContractEventListeners : M unit :=
  ws <- gets watchers ;;
  forEach ws unwatch ;;;
  modify (set_watchers []).

(** Construction: [const watchers = []], then
    [startContractEventListeners()]. *)
Definition preferredNetworkRegistry : M unit :=
  modify (set_watchers []) ;;;
  startContractEventListeners.

End WithConfiguration.

(** The calls a step issues: those it adds to the record. *)
Definition issued {A} (m : M A) (w : World) : list Call :=
  drop (length (calls w)) (calls (snd (m w))).

End Client.

(** ** The earlier client, whose configuration always carries [callbacks] *)

Module ClientV1.
Import Client.

Section WithCallbacks.
Variable configuration_callbacks : Callbacks.

(** [if (configuration.callbacks.onContractEvents) { ... }] *)
Definition startContractEventListeners : M unit :=
  if Js.truthy (onContractEvents configuration_callbacks) then
    h <- publicClient_watchContractEvent (onContractEvents configuration_callbacks) ;;
    modify (fun w => set_watchers (watchers w ++ [h]) w)
  else ret tt.

Definition preferredNetworkRegistry : M unit :=
  modify (set_watchers []) ;;;
  startContractEventListeners.

End WithCallbacks.

End ClientV1.

(** ** The calls of the composite operations, and sample worlds *)

Module Scenario.
Import Contract Client.

(** The calls [payOnPreferedNetwork(A, v)] issues when nothing fails. *)
Definition payOnPreferedNetwork_calls (A : address) (v : Z) (w : World) : list Call :=
  [ contract_read_getPreferredNetwork_ (Some A);
    wallet_switchChain_ (Js.Number (Contract.getPreferredNetwork A (registry w)));
    wallet_getAddresses_;
    wallet_sendTransaction_ (head (accounts w)) A v;
    publicClient_waitForTransactionReceipt_ (N.of_nat (length (transactions w))) ].

(** Whether a step answered, rather than failed. *)
Definition answered {A} (x : result A * World) : bool :=
  match fst x with Ok _ => true | Err _ => false end.


Definition alice : address := 10%N.
Definition bob : address := 11%N.
Definition carol : address := 12%N.

Definition no_faults : list Call -> option Error := fun _ => None.

(** A registry in which [alice] chose network 5, [bob] network [2^53] and
    [carol] network [2^53 + 1]. *)
Definition chosen : Registry :=
  run [mkTx alice 5; mkTx bob (2 ^ 53); mkTx carol (2 ^ 53 + 1)] deployed.

(** A world over that registry in which [signer] holds the wallet, the
    name [alice.eth] is bound to [alice] and no other name is bound. *)
Definition world_of (signer : address) : World :=
  {| registry := chosen;
     ens := {[ "alice.eth"%string := alice ]};
     accounts := [signer];
     chainId := 1;
     transactions := [];
     subscriptions := [];
     opened := 0;
     watchers := [];
     calls := [];
     faults := no_faults |}.

(** A configuration that supplies no callbacks at all, one that supplies
    an empty set of callbacks, and one that supplies a log callback. *)
Definition no_callbacks : Configuration := {| callbacks := Js.undefined |}.
Definition empty_callbacks : Configuration :=
  {| callbacks := Js.defined (mkCallbacks Js.undefined Js.undefined Js.undefined Js.undefined) |}.
Definition log_callback : Configuration :=
  {| callbacks := Js.defined (mkCallbacks Js.undefined Js.undefined Js.undefined (Js.defined 7%nat)) |}.

End Scenario.

(** ** Histories of the contract: what a list of transactions amounts to *)

Module History.
Import Contract.

(** A transaction succeeds when its argument passes the [require]. *)
Definition succeeds (tx : Tx) : bool := 0 <? tx_network tx.

(** The event a successful transaction emits. *)
Definition event_of (tx : Tx) : Event :=
  NetworkPreferenceSet (tx_sender tx) (tx_network tx).

(** The argument of the last successful call of the setter by [a]. *)
Definition last_set (a : address) (txs : list Tx) : option Z :=
  fold_left (fun acc tx => if sets a tx then Some (tx_network tx) else acc) txs None.

(** The value carried by the last event emitted for [a]. *)
Definition last_event (a : address) (evs : list Event) : option Z :=
  fold_left
    (fun acc ev =>
       match ev with
       | NetworkPreferenceSet user network =>
           if bool_decide (user = a) then Some network else acc
       end)
    evs None.

End History.

(** ** Properties of the contract *)

Section ContractClaims.
Import Contract.

Lemma set_positive sender n st :
  0 < n ->
  setPreferredNetwork sender n st =
    Success {| networkPreferences := <[sender := n]> (networkPreferences st);
               emitted := emitted st ++ [NetworkPreferenceSet sender n] |}.
Proof.
  intros Hn. unfold setPreferredNetwork.
  destruct (0 <? n) eqn:E; [reflexivity | apply Z.ltb_ge in E; lia].
Qed.

Lemma apply_tx_unset a tx st :
  sets a tx = false ->
  getPreferredNetwork a (apply_tx st tx) = getPreferredNetwork a st.
Proof.
  unfold sets, apply_tx, setPreferredNetwork. intros Hs.
  destruct (0 <? tx_network tx); [| reflexivity].
  rewrite andb_true_r in Hs. apply bool_decide_eq_false in Hs.
  unfold getPreferredNetwork, slot; cbn.
  by rewrite lookup_insert_ne.
Qed.

Lemma run_unset a txs : forall st,
  forallb (fun tx => negb (sets a tx)) txs = true ->
  getPreferredNetwork a (run txs st) = getPreferredNetwork a st.
Proof.
  induction txs as [| tx txs IH]; intros st H; [reflexivity |].
  cbn in H. apply andb_prop in H as [Htx Hrest].
  cbn. rewrite IH by assumption.
  apply apply_tx_unset. by destruct (sets a tx).
Qed.

(** C1. Write-then-read consistency: for a positive [n] the setter called
    by [A] succeeds, and after it, whatever is sent to the contract, as
    long as [A] makes no further successful call of the setter, the
    getter returns [n] for [A]. *)
Theorem set_then_get (A : address) (n : Z) (st : Registry) :
  0 < n ->
  exists st',
    setPreferredNetwork A n st = Success st' /\
    forall txs,
      forallb (fun tx => negb (sets A tx)) txs = true ->
      getPreferredNetwork A (run txs st') = n.
Proof.
  intros Hn. eexists. split; [by apply set_positive |].
  intros txs Htxs. rewrite run_unset by assumption.
  unfold getPreferredNetwork, slot; cbn. by rewrite lookup_insert_eq.
Qed.

Lemma set_then_get_witness :
  0 < 5 /\
  exists st',
    setPreferredNetwork 1%N 5 deployed = Success st' /\
    forall txs,
      forallb (fun tx => negb (sets 1%N tx)) txs = true ->
      getPreferredNetwork 1%N (run txs st') = 5.
Proof. split; [reflexivity | apply (set_then_get 1%N 5 deployed); reflexivity]. Defined.

(** C5. In every state the contract can reach from deployment, an
    account that never called the setter successfully reads as the unset
    sentinel [0]. *)
Theorem never_set_reads_zero (A : address) (txs : list Tx) :
  forallb (fun tx => negb (sets A tx)) txs = true ->
  getPreferredNetwork A (run txs deployed) = 0.
Proof.
  intros H. rewrite run_unset by assumption. reflexivity.
Qed.

Lemma never_set_reads_zero_witness :
  forallb (fun tx => negb (sets 1%N tx)) [mkTx 2%N 5; mkTx 1%N 0; mkTx 3%N 9] = true /\
  getPreferredNetwork 1%N (run [mkTx 2%N 5; mkTx 1%N 0; mkTx 3%N 9] deployed) = 0.
Proof.
  split; [reflexivity |].
  apply (never_set_reads_zero 1%N [mkTx 2%N 5; mkTx 1%N 0; mkTx 3%N 9]).
  reflexivity.
Defined.

(** C9. A successful [setPreferredNetwork(n)] by [A] writes [n] at [A]'s
    entry, leaves the entry of every other account as it was, and emits
    exactly one event, [NetworkPreferenceSet(A, n)]. *)
Theorem set_updates_only_caller (A : address) (n : Z) (st : Registry) :
  0 < n ->
  exists st',
    setPreferredNetwork A n st = Success st' /\
    networkPreferences st' !! A = Some n /\
    (forall B, B <> A -> networkPreferences st' !! B = networkPreferences st !! B) /\
    (forall B, B <> A -> getPreferredNetwork B st' = getPreferredNetwork B st) /\
    emitted st' = emitted st ++ [NetworkPreferenceSet A n].
Proof.
  intros Hn. eexists. split; [by apply set_positive |]. cbn.
  split; [by rewrite lookup_insert_eq |].
  split; [intros B HB; by rewrite lookup_insert_ne |].
  split; [| reflexivity].
  intros B HB. unfold getPreferredNetwork, slot; cbn.
  by rewrite lookup_insert_ne.
Qed.

Lemma set_updates_only_caller_witness :
  0 < 5 /\
  exists st',
    setPreferredNetwork 1%N 5 deployed = Success st' /\
    networkPreferences st' !! 1%N = Some 5 /\
    (forall B, B <> 1%N -> networkPreferences st' !! B = networkPreferences deployed !! B) /\
    (forall B, B <> 1%N -> getPreferredNetwork B st' = getPreferredNetwork B deployed) /\
    emitted st' = emitted deployed ++ [NetworkPreferenceSet 1%N 5].
Proof. split; [reflexivity | apply (set_updates_only_caller 1%N 5 deployed); reflexivity]. Defined.

End ContractClaims.

(** ** Properties of the conversion [Number] *)

Section NumberFacts.

Lemma Number_small p : 0 <= p <= 2 ^ 53 -> Js.Number p = p.
Proof.
  intros [Hlo Hhi]. unfold Js.Number.
  destruct (Z.eq_dec p (2 ^ 53)) as [-> | Hne]; [reflexivity |].
  assert (Hlog : Z.log2 (Z.abs p) - 52 <= 0).
  { rewrite Z.abs_eq by assumption.
    destruct (Z.eq_dec p 0) as [-> | Hp]; [cbn; lia |].
    assert (Z.log2 p < 53) by (apply Z.log2_lt_pow2; lia). lia. }
  apply Z.leb_le in Hlog. by rewrite Hlog.
Qed.

Lemma Number_large p :
  2 ^ 53 <= p ->
  let e := Z.log2 p - 52 in
  0 < e /\
  (p mod 2 ^ e = 0 -> Js.Number p = p) /\
  (p mod 2 ^ e <> 0 -> Js.Number p <> p).
Proof.
  intros Hp e.
  assert (He : 0 < e).
  { subst e. assert (53 <= Z.log2 p); [| lia].
    change 53 with (Z.log2 (2 ^ 53)). by apply Z.log2_le_mono. }
  split; [assumption |].
  unfold Js.Number. rewrite Z.abs_eq by lia. fold e.
  destruct (e <=? 0) eqn:E; [apply Z.leb_le in E; lia |].
  rewrite Z.sgn_pos by lia.
  rewrite Z.shiftr_div_pow2, Z.land_ones, !Z.shiftl_mul_pow2 by lia.
  set (B := 2 ^ e). set (h := 2 ^ (e - 1)).
  assert (HB : B = 2 * h).
  { subst B h. replace e with (Z.succ (e - 1)) at 1 by lia.
    rewrite Z.pow_succ_r by lia. reflexivity. }
  assert (Hh : 0 < h) by (subst h; apply Z.pow_pos_nonneg; lia).
  pose proof (Z.div_mod p B ltac:(lia)) as Hdm.
  pose proof (Z.mod_pos_bound p B ltac:(lia)) as Hr.
  set (q := p / B) in *. set (r := p mod B) in *.
  split.
  - intros Hr0. rewrite Hr0.
    replace (1 * h <? 0) with false by (symmetry; apply Z.ltb_ge; lia).
    replace (0 =? 1 * h) with false by (symmetry; apply Z.eqb_neq; lia).
    cbn. lia.
  - intros Hr0.
    destruct ((1 * h <? r) || (r =? 1 * h) && Z.odd q); nia.
Qed.






End NumberFacts.

(** ** Properties of the client *)

Section ClientClaims.
Import Contract Client Scenario.

(** Unfold a client function down to the world it computes. *)
Ltac run_client :=
  cbv [issued payOnPreferedNetwork payAddress getPreferredNetwork getCurrentAddress
       switchToPreferredNetwork setPreferredNetwork payENSAddress
       payENSOnPreferedNetwork getPreferedNetworkFromENS
       resolveCurrentPreferredNetwork normalize
       wallet_getAddresses contract_read_getPreferredNetwork
       contract_write_setPreferredNetwork publicClient_getEnsAddress
       wallet_switchChain wallet_sendTransaction
       publicClient_waitForTransactionReceipt
       bind ret throw gets modify issue transport]; cbn.

(** Split on every answer of the transport and on the wallet's first account. *)
Ltac fault_cases w :=
  repeat (rewrite <- ?app_assoc; cbn;
          match goal with
          | |- context [match faults w ?t with _ => _ end] =>
              destruct (faults w t) eqn:?
          | |- context [match head ?t with _ => _ end] =>
              destruct (head t) eqn:?
          | |- context [if (0 <=? Js.Number ?p) && (Js.Number ?p <=? ?m) then _ else _] =>
              destruct ((0 <=? Js.Number p) && (Js.Number p <=? m)) eqn:?
          end);
  cbn.

Ltac tidy_calls := rewrite <- ?app_assoc; cbn; rewrite ?drop_app_length.

Lemma sent_lookup (l : list Transaction) (t : Transaction) :
  (l ++ [t]) !! N.to_nat (N.of_nat (length l)) = Some t.
Proof. rewrite Nat2N.id. by apply list_lookup_middle. Qed.

Lemma payOnPreferedNetwork_prefix (A : address) (v : Z) (w : World) :
  exists k, (1 <= k)%nat /\
    issued (payOnPreferedNetwork A v) w = take k (payOnPreferedNetwork_calls A v w).
Proof.
  unfold payOnPreferedNetwork_calls. run_client. fault_cases w.
  all: rewrite ?sent_lookup; tidy_calls.
  all: first [ exists 1%nat; split; [lia | reflexivity]
             | exists 2%nat; split; [lia | reflexivity]
             | exists 3%nat; split; [lia | reflexivity]
             | exists 4%nat; split; [lia | reflexivity]
             | exists 5%nat; split; [lia | reflexivity] ].
Qed.

Lemma payOnPreferedNetwork_success (A : address) (v : Z) (w : World) r :
  fst (payOnPreferedNetwork A v w) = Ok r ->
  issued (payOnPreferedNetwork A v) w = payOnPreferedNetwork_calls A v w /\
  exists sender,
    head (accounts w) = Some sender /\
    r = mkReceipt (N.of_nat (length (transactions w))) (Transfer sender A v) /\
    chainId (snd (payOnPreferedNetwork A v w)) =
      Js.Number (Contract.getPreferredNetwork A (registry w)) /\
    transactions (snd (payOnPreferedNetwork A v w)) =
      transactions w ++ [Transfer sender A v] /\
    (0 <=? Js.Number (Contract.getPreferredNetwork A (registry w))) &&
    (Js.Number (Contract.getPreferredNetwork A (registry w)) <=? Js.MAX_SAFE_INTEGER) = true.
Proof.
  unfold payOnPreferedNetwork_calls. run_client. fault_cases w.
  all: rewrite ?sent_lookup; tidy_calls; cbn; try discriminate.
  intros [= <-]. split; [reflexivity |]. eexists. eauto 10.
Qed.


(** C2. [setPreferredNetwork(0)] fails for every caller: the contract
    reverts on a zero argument whoever sends it and in whatever state, and
    the client's call fails in every world with the very error its
    collaborator raised (the transport's, the wallet's for a missing
    account, or the contract's revert), leaving the registry and the
    transactions sent as they were. *)
Theorem setPreferredNetwork_zero_fails (configuration : Configuration) (w : World) :
  (forall sender st,
     Contract.setPreferredNetwork sender 0 st = Revert "Invalid network ID") /\
  fst (setPreferredNetwork configuration 0 w) =
    match faults w (calls w ++ [wallet_getAddresses_]) with
    | Some e => Err e
    | None =>
        match head (accounts w) with
        | None => Err AccountNotFound
        | Some a =>
            match faults w (calls w ++
                    [wallet_getAddresses_;
                     contract_write_setPreferredNetwork_ 0 (Some a)
                       (Js.chain (callbacks configuration) onPreferredNetworkSet)]) with
            | Some e => Err e
            | None => Err (ContractRevert "Invalid network ID")
            end
        end
    end /\
  (exists e, fst (setPreferredNetwork configuration 0 w) = Err e) /\
  registry (snd (setPreferredNetwork configuration 0 w)) = registry w /\
  transactions (snd (setPreferredNetwork configuration 0 w)) = transactions w.
Proof.
  split; [reflexivity |].
  assert (Hmax : (0 <=? uint_max) = true) by reflexivity.
  run_client. rewrite ?Hmax. fault_cases w; rewrite ?Hmax; fault_cases w; eauto.
Qed.

(** C3. When the resolver answers that no address is bound to [name],
    [payENSAddress(name, v)] throws the error "Could not resolve address
    for ENS name: <name>" having issued the resolution and nothing else:
    no [sendTransaction] is issued and no transaction is sent.  The same
    holds of [payENSOnPreferedNetwork]. *)
Theorem payENSAddress_unresolved (name : string) (v : Z) (w : World) :
  fst (publicClient_getEnsAddress name w) = Ok None ->
  (fst (payENSAddress name v w) =
     Err (JsError ("Could not resolve address for ENS name: " ++ name)) /\
   issued (payENSAddress name v) w = [publicClient_getEnsAddress_ name] /\
   (forall account to value,
      wallet_sendTransaction_ account to value ∉ issued (payENSAddress name v) w) /\
   transactions (snd (payENSAddress name v w)) = transactions w) /\
  (fst (payENSOnPreferedNetwork name v w) =
     Err (JsError ("Could not resolve address for ENS name: " ++ name)) /\
   issued (payENSOnPreferedNetwork name v) w = [publicClient_getEnsAddress_ name] /\
   (forall account to value,
      wallet_sendTransaction_ account to value ∉ issued (payENSOnPreferedNetwork name v) w) /\
   transactions (snd (payENSOnPreferedNetwork name v w)) = transactions w).
Proof.
  intros H.
  assert (Hf : faults w (calls w ++ [publicClient_getEnsAddress_ name]) = None).
  { revert H. run_client. by destruct (faults w _). }
  assert (Hsend : forall account to value,
            wallet_sendTransaction_ account to value ∉ [publicClient_getEnsAddress_ name]).
  { intros account to value Hin. apply list_elem_of_singleton in Hin. discriminate. }
  split; revert H; run_client; rewrite Hf; cbn; intros [= He]; rewrite He; cbn;
    rewrite drop_app_length; auto.
Qed.

Lemma payENSAddress_unresolved_witness :
  fst (publicClient_getEnsAddress "bob.eth" (world_of alice)) = Ok None /\
  fst (payENSAddress "bob.eth" 3 (world_of alice)) =
    Err (JsError "Could not resolve address for ENS name: bob.eth") /\
  transactions (snd (payENSAddress "bob.eth" 3 (world_of alice))) = [].
Proof.
  split; [reflexivity |].
  destruct (payENSAddress_unresolved "bob.eth" 3 (world_of alice) eq_refl)
    as [(Hr & _ & _ & Ht) _].
  split; [exact Hr | exact Ht].
Defined.


(** C4 fails on the code.  [getPreferedNetworkFromENS(ens)] never reads
    its argument: it resolves the fixed name [wevm.eth], so every name
    gets the same answer.  Where [alice.eth] is bound to an account whose
    stored preference is 5 and [wevm.eth] is bound to nothing, the lookup
    of [alice.eth] answers "not found". *)
Theorem getPreferedNetworkFromENS_ignores_name :
  (forall (ens1 ens2 : string) (w : World),
     getPreferedNetworkFromENS ens1 w = getPreferedNetworkFromENS ens2 w) /\
  ens (world_of alice) !! "alice.eth"%string = Some alice /\
  Contract.getPreferredNetwork alice (registry (world_of alice)) = 5 /\
  fst (getPreferedNetworkFromENS "alice.eth" (world_of alice)) = Ok None /\
  issued (getPreferedNetworkFromENS "alice.eth") (world_of alice) =
    [publicClient_getEnsAddress_ "wevm.eth"].
Proof. repeat split; reflexivity. Qed.

(** C6 as stated fails: paying [alice] 7 on her preferred network, with
    nothing failing, issues five calls, not two, and between the read of
    her preference and the payment the wallet is switched to network 5. *)
Lemma payOnPreferedNetwork_two_calls_counterexample :
  issued (payOnPreferedNetwork alice 7) (world_of bob) =
    [ contract_read_getPreferredNetwork_ (Some alice);
      wallet_switchChain_ 5;
      wallet_getAddresses_;
      wallet_sendTransaction_ (Some bob) alice 7;
      publicClient_waitForTransactionReceipt_ 0 ] /\
  length (issued (payOnPreferedNetwork alice 7) (world_of bob)) <> 2%nat /\
  ~ (exists pay,
       issued (payOnPreferedNetwork alice 7) (world_of bob) =
         [contract_read_getPreferredNetwork_ (Some alice); pay]).
Proof.
  split; [reflexivity |]. split; [vm_compute; discriminate |].
  intros [pay H]. vm_compute in H. discriminate.
Qed.

Lemma payOnPreferedNetwork_steps (A : address) (v : Z) (w : World) :
  let preferred := Js.Number (Contract.getPreferredNetwork A (registry w)) in
  let w1 := snd (contract_read_getPreferredNetwork (Some A) w) in
  let w2 := snd (wallet_switchChain preferred w1) in
  let w3 := snd (wallet_getAddresses w2) in
  let w4 := snd (wallet_sendTransaction (head (accounts w)) A v w3) in
  issued (payOnPreferedNetwork A v) w =
    contract_read_getPreferredNetwork_ (Some A) ::
    (if answered (contract_read_getPreferredNetwork (Some A) w) then
       wallet_switchChain_ preferred ::
       (if answered (wallet_switchChain preferred w1) then
          wallet_getAddresses_ ::
          (if answered (wallet_getAddresses w2) then
             wallet_sendTransaction_ (head (accounts w)) A v ::
             (if answered (wallet_sendTransaction (head (accounts w)) A v w3) then
                [publicClient_waitForTransactionReceipt_
                   (N.of_nat (length (transactions w)))]
              else [])
           else [])
        else [])
     else []) /\
  fst (payOnPreferedNetwork A v w) =
    match fst (contract_read_getPreferredNetwork (Some A) w) with
    | Err e => Err e
    | Ok _ =>
        match fst (wallet_switchChain preferred w1) with
        | Err e => Err e
        | Ok _ =>
            match fst (wallet_getAddresses w2) with
            | Err e => Err e
            | Ok _ =>
                match fst (wallet_sendTransaction (head (accounts w)) A v w3) with
                | Err e => Err e
                | Ok hash => fst (publicClient_waitForTransactionReceipt hash w4)
                end
            end
        end
    end.
Proof.
  cbv [answered]. run_client. fault_cases w.
  all: rewrite <- ?app_assoc in *; cbn in *.
  all: repeat match goal with
       | H : Some _ = Some _ |- _ => injection H as ?; subst
       | H : Some _ = None |- _ => discriminate H
       | H : None = Some _ |- _ => discriminate H
       | H : ?x = ?y, H' : ?x = ?z |- _ => rewrite H in H'
       end.
  all: rewrite ?sent_lookup; tidy_calls; cbn; split; reflexivity.
Qed.

(** C6, amended.  [payOnPreferedNetwork(A, v)] issues its calls in one
    fixed order: the read of [A]'s stored preference, the switch of the
    wallet to [Number] of that preference, and then the payment of [A],
    which is the wallet's account list, the transaction sending [v] to [A]
    and the wait for its receipt.  The read is always issued, and each
    later call is issued exactly when the call before it answered; the
    operation fails with the error of the first call that failed, and
    otherwise returns what the wait returns.  So the calls issued are a
    non-empty initial part of that sequence, and the whole of it when
    the operation succeeds. *)
Theorem payOnPreferedNetwork_call_order (A : address) (v : Z) (w : World) :
  let preferred := Js.Number (Contract.getPreferredNetwork A (registry w)) in
  let w1 := snd (contract_read_getPreferredNetwork (Some A) w) in
  let w2 := snd (wallet_switchChain preferred w1) in
  let w3 := snd (wallet_getAddresses w2) in
  let w4 := snd (wallet_sendTransaction (head (accounts w)) A v w3) in
  (exists k, (1 <= k)%nat /\
     issued (payOnPreferedNetwork A v) w = take k (payOnPreferedNetwork_calls A v w)) /\
  (forall r, fst (payOnPreferedNetwork A v w) = Ok r ->
     issued (payOnPreferedNetwork A v) w = payOnPreferedNetwork_calls A v w) /\
  issued (payOnPreferedNetwork A v) w =
    contract_read_getPreferredNetwork_ (Some A) ::
    (if answered (contract_read_getPreferredNetwork (Some A) w) then
       wallet_switchChain_ preferred ::
       (if answered (wallet_switchChain preferred w1) then
          wallet_getAddresses_ ::
          (if answered (wallet_getAddresses w2) then
             wallet_sendTransaction_ (head (accounts w)) A v ::
             (if answered (wallet_sendTransaction (head (accounts w)) A v w3) then
                [publicClient_waitForTransactionReceipt_
                   (N.of_nat (length (transactions w)))]
              else [])
           else [])
        else [])
     else []) /\
  fst (payOnPreferedNetwork A v w) =
    match fst (contract_read_getPreferredNetwork (Some A) w) with
    | Err e => Err e
    | Ok _ =>
        match fst (wallet_switchChain preferred w1) with
        | Err e => Err e
        | Ok _ =>
            match fst (wallet_getAddresses w2) with
            | Err e => Err e
            | Ok _ =>
                match fst (wallet_sendTransaction (head (accounts w)) A v w3) with
                | Err e => Err e
                | Ok hash => fst (publicClient_waitForTransactionReceipt hash w4)
                end
            end
        end
    end.
Proof.
  cbn zeta.
  split; [apply payOnPreferedNetwork_prefix |].
  split; [intros r Hr; by destruct (payOnPreferedNetwork_success A v w r Hr) |].
  apply payOnPreferedNetwork_steps.
Qed.

Lemma payOnPreferedNetwork_call_order_witness :
  fst (payOnPreferedNetwork alice 7 (world_of bob)) =
    Ok (mkReceipt 0 (Transfer bob alice 7)) /\
  issued (payOnPreferedNetwork alice 7) (world_of bob) =
    payOnPreferedNetwork_calls alice 7 (world_of bob).
Proof.
  split; [reflexivity |].
  apply (proj1 (proj2 (payOnPreferedNetwork_call_order alice 7 (world_of bob)))
           (mkReceipt 0 (Transfer bob alice 7))).
  reflexivity.
Defined.


(** What cancelling every recorded subscription does to the world. *)
Lemma forEach_unwatch (ws : list nat) : forall w : World,
  fst (forEach ws unwatch w) = Ok tt /\
  calls (snd (forEach ws unwatch w)) = calls w ++ map unwatch_ ws /\
  (forall s, s ∈ subscriptions (snd (forEach ws unwatch w)) <->
             s ∈ subscriptions w /\ s ∉ ws) /\
  watchers (snd (forEach ws unwatch w)) = watchers w.
Proof.
  induction ws as [| h ws IH]; intros w.
  - cbn. rewrite app_nil_r. repeat split; try tauto.
    apply not_elem_of_nil.
  - change (forEach (h :: ws) unwatch w)
      with (forEach ws unwatch
              (set_subscriptions (filter (fun s => s <> h) (subscriptions w))
                 (set_calls (calls w ++ [unwatch_ h]) w))).
    destruct (IH (set_subscriptions (filter (fun s => s <> h) (subscriptions w))
                    (set_calls (calls w ++ [unwatch_ h]) w)))
      as (Hok & Hcalls & Hsubs & Hw).
    split; [exact Hok |]. split; [| split; [| exact Hw]].
    + rewrite Hcalls. cbn. by rewrite <- app_assoc.
    + intros s. rewrite Hsubs. cbn. rewrite list_elem_of_filter, elem_of_cons.
      tauto.
Qed.

Lemma removeContractEventListeners_run (w : World) :
  removeContractEventListeners w =
    (Ok tt, set_watchers [] (snd (forEach (watchers w) unwatch w))).
Proof.
  destruct (forEach_unwatch (watchers w) w) as (Hok & _).
  unfold removeContractEventListeners, bind, gets, modify.
  destruct (forEach (watchers w) unwatch w) as [r w']. cbn in *.
  by rewrite Hok.
Qed.

(** C7. [removeContractEventListeners()] never throws; after it the
    instance records no subscription and none of those it recorded is
    still open (so none at all is open when every open subscription was
    one of its own); a second call issues no call, does not throw and
    leaves the world exactly as the first call left it. *)
Theorem removeContractEventListeners_idempotent (w : World) :
  let once := snd (removeContractEventListeners w) in
  fst (removeContractEventListeners w) = Ok tt /\
  fst (removeContractEventListeners once) = Ok tt /\
  watchers once = [] /\
  (forall s, s ∈ subscriptions once <-> s ∈ subscriptions w /\ s ∉ watchers w) /\
  (subscriptions w ⊆ watchers w -> subscriptions once = []) /\
  issued removeContractEventListeners once = [] /\
  snd (removeContractEventListeners once) = once.
Proof.
  cbn zeta. rewrite (removeContractEventListeners_run w). cbn [fst snd].
  destruct (forEach_unwatch (watchers w) w) as (_ & _ & Hsubs & _).
  set (w' := snd (forEach (watchers w) unwatch w)) in *.
  assert (Hagain : removeContractEventListeners (set_watchers [] w') =
                     (Ok tt, set_watchers [] w')) by reflexivity.
  rewrite Hagain. cbn [fst snd].
  repeat split; try (apply Hsubs; assumption).
  - intros Hown. apply elem_of_nil_inv. intros s Hs.
    apply Hsubs in Hs as [Hin Hout]. apply Hout, Hown, Hin.
  - unfold issued. rewrite Hagain. cbn. by rewrite drop_all.
Qed.

Lemma removeContractEventListeners_idempotent_witness :
  let w := snd (preferredNetworkRegistry log_callback (world_of alice)) in
  subscriptions w = [0%nat] /\
  subscriptions (snd (removeContractEventListeners w)) = [] /\
  snd (removeContractEventListeners (snd (removeContractEventListeners w))) =
    snd (removeContractEventListeners w).
Proof.
  cbn zeta. split; [reflexivity |].
  destruct (removeContractEventListeners_idempotent
              (snd (preferredNetworkRegistry log_callback (world_of alice))))
    as (_ & _ & _ & _ & Hnone & _ & Hsame).
  split; [| exact Hsame].
  apply Hnone. intros s Hs. exact Hs.
Defined.


(** What construction does, for every configuration: it subscribes unless
    [onContractEvents] is [null], and then opens one subscription and
    records its cancellation function. *)
Lemma preferredNetworkRegistry_run (configuration : Configuration) (w : World) :
  let onLogs := Js.chain (callbacks configuration) onContractEvents in
  let w' := snd (preferredNetworkRegistry configuration w) in
  fst (preferredNetworkRegistry configuration w) = Ok tt /\
  issued (preferredNetworkRegistry configuration) w =
    (if Js.strict_not_null onLogs then [publicClient_watchContractEvent_ onLogs] else []) /\
  watchers w' = (if Js.strict_not_null onLogs then [opened w] else []) /\
  subscriptions w' = subscriptions w ++ watchers w'.
Proof.
  cbv [preferredNetworkRegistry startContractEventListeners issued
       publicClient_watchContractEvent bind modify issue ret].
  destruct (Js.strict_not_null _); cbn.
  - by rewrite drop_app_length.
  - by rewrite drop_all, app_nil_r.
Qed.

(** The earlier client subscribes exactly when a log callback is supplied. *)
Lemma ClientV1_subscribes_iff_callback (cbs : Callbacks) (w : World) :
  issued (ClientV1.preferredNetworkRegistry cbs) w =
    match onContractEvents cbs with
    | Js.defined f => [publicClient_watchContractEvent_ (Js.defined f)]
    | _ => []
    end.
Proof.
  cbv [ClientV1.preferredNetworkRegistry ClientV1.startContractEventListeners issued
       publicClient_watchContractEvent bind modify issue ret].
  destruct (onContractEvents cbs); cbn;
    by rewrite ?drop_app_length, ?drop_all.
Qed.

(** C8 fails on the code.  A client constructed with no callbacks at all,
    or with callbacks that leave [onContractEvents] out, still opens a
    subscription (with no log callback to deliver to) and records its
    cancellation function: the guard compares the missing callback with
    [null], and a missing property is [undefined]. *)
Theorem construction_without_log_callback_subscribes (w : World) :
  (issued (preferredNetworkRegistry no_callbacks) w =
     [publicClient_watchContractEvent_ Js.undefined] /\
   watchers (snd (preferredNetworkRegistry no_callbacks w)) = [opened w] /\
   subscriptions (snd (preferredNetworkRegistry no_callbacks w)) =
     subscriptions w ++ [opened w]) /\
  (issued (preferredNetworkRegistry empty_callbacks) w =
     [publicClient_watchContractEvent_ Js.undefined] /\
   watchers (snd (preferredNetworkRegistry empty_callbacks w)) = [opened w] /\
   subscriptions (snd (preferredNetworkRegistry empty_callbacks w)) =
     subscriptions w ++ [opened w]).
Proof.
  split.
  - destruct (preferredNetworkRegistry_run no_callbacks w) as (_ & Hi & Hw & Hs).
    split; [exact Hi | split; [exact Hw |]].
    exact (eq_trans Hs (f_equal (app (subscriptions w)) Hw)).
  - destruct (preferredNetworkRegistry_run empty_callbacks w) as (_ & Hi & Hw & Hs).
    split; [exact Hi | split; [exact Hw |]].
    exact (eq_trans Hs (f_equal (app (subscriptions w)) Hw)).
Qed.







End ClientClaims.

Section NumberClaims.
Import Contract Client Scenario.




End NumberClaims.

(** ** Further properties of the contract *)

Section ContractHistory.
Import Contract History.

Lemma run_snoc txs tx st : run (txs ++ [tx]) st = apply_tx (run txs st) tx.
Proof. unfold run. by rewrite fold_left_app. Qed.

Lemma apply_tx_read a tx st :
  getPreferredNetwork a (apply_tx st tx) =
    if sets a tx then tx_network tx else getPreferredNetwork a st.
Proof.
  destruct (sets a tx) eqn:Hs.
  - unfold sets in Hs. apply andb_prop in Hs as [Ha Hn].
    apply bool_decide_eq_true in Ha. subst a.
    unfold apply_tx, setPreferredNetwork. rewrite Hn.
    unfold getPreferredNetwork, slot; cbn. by rewrite lookup_insert_eq.
  - by apply apply_tx_unset.
Qed.

Lemma apply_tx_emitted tx st :
  emitted (apply_tx st tx) =
    emitted st ++ (if succeeds tx then [event_of tx] else []).
Proof.
  unfold apply_tx, setPreferredNetwork, succeeds, event_of.
  destruct (0 <? tx_network tx); cbn; by rewrite ?app_nil_r.
Qed.

(** X1. Last write wins: after any list of transactions, the preference read
    for [A] is the argument of [A]'s last successful call of the setter,
    and what was stored before when there is none. *)
Theorem last_write_wins (A : address) (txs : list Tx) (st : Registry) :
  getPreferredNetwork A (run txs st) =
    default (getPreferredNetwork A st) (last_set A txs).
Proof.
  induction txs as [| tx txs IH] using rev_ind; [reflexivity |].
  rewrite run_snoc, apply_tx_read. unfold last_set. rewrite fold_left_app. cbn.
  destruct (sets A tx); [reflexivity | exact IH].
Qed.

(** X2. The event log is exactly the successful transactions, in order: one
    event per transaction whose argument is positive, carrying its sender
    and argument, and none for a reverted one. *)
Theorem emitted_is_successful_history (txs : list Tx) (st : Registry) :
  emitted (run txs st) = emitted st ++ map event_of (List.filter succeeds txs).
Proof.
  induction txs as [| tx txs IH] using rev_ind; [cbn; by rewrite app_nil_r |].
  rewrite run_snoc, apply_tx_emitted, IH, List.filter_app, map_app, <- app_assoc.
  cbn. by destruct (succeeds tx).
Qed.

Lemma last_event_snoc a evs user network :
  last_event a (evs ++ [NetworkPreferenceSet user network]) =
    if bool_decide (user = a) then Some network else last_event a evs.
Proof. unfold last_event. by rewrite fold_left_app. Qed.

(** X3. The preferences can be recovered from the events: in every state
    reached from deployment, the preference read for [A] is the value of
    the last event emitted for [A], and [0] when no event names [A]. *)
Theorem storage_mirrors_events (A : address) (txs : list Tx) :
  getPreferredNetwork A (run txs deployed) =
    default 0 (last_event A (emitted (run txs deployed))).
Proof.
  induction txs as [| tx txs IH] using rev_ind; [reflexivity |].
  rewrite run_snoc, apply_tx_read, apply_tx_emitted.
  unfold sets, succeeds, event_of.
  destruct (0 <? tx_network tx); cbn.
  - rewrite last_event_snoc, andb_true_r.
    destruct (bool_decide (tx_sender tx = A)); [reflexivity | exact IH].
  - rewrite andb_false_r, app_nil_r. exact IH.
Qed.

(** X4. A preference cannot be unset: once an account reads as positive it
    reads as positive after every further list of transactions; and from
    deployment on no account ever reads as negative. *)
Theorem preference_never_unset (A : address) (txs : list Tx) (st : Registry) :
  0 <= getPreferredNetwork A (run txs deployed) /\
  (0 < getPreferredNetwork A st -> 0 < getPreferredNetwork A (run txs st)).
Proof.
  assert (Hstep : forall tx, sets A tx = true -> 0 < tx_network tx).
  { intros tx Hs. unfold sets in Hs. apply andb_prop in Hs as [_ Hn].
    by apply Z.ltb_lt. }
  split.
  - induction txs as [| tx txs IH] using rev_ind; [cbn; reflexivity |].
    rewrite run_snoc, apply_tx_read.
    destruct (sets A tx) eqn:Hs; [| exact IH].
    apply Z.lt_le_incl. by apply Hstep.
  - intros Hpos. induction txs as [| tx txs IH] using rev_ind; [exact Hpos |].
    rewrite run_snoc, apply_tx_read.
    destruct (sets A tx) eqn:Hs; [by apply Hstep | exact IH].
Qed.

Lemma preference_never_unset_witness :
  0 < getPreferredNetwork 1%N (run [mkTx 1%N 5] deployed) /\
  0 < getPreferredNetwork 1%N
        (run [mkTx 1%N 0; mkTx 2%N 9] (run [mkTx 1%N 5] deployed)).
Proof.
  split; [reflexivity |].
  apply (proj2 (preference_never_unset 1%N [mkTx 1%N 0; mkTx 2%N 9]
                  (run [mkTx 1%N 5] deployed))).
  reflexivity.
Defined.

(** X5. Transactions of different senders commute on the storage: whichever
    of the two is applied first, the mapping ends up the same. *)
Theorem distinct_senders_commute (t1 t2 : Tx) (st : Registry) :
  tx_sender t1 <> tx_sender t2 ->
  networkPreferences (apply_tx (apply_tx st t1) t2) =
    networkPreferences (apply_tx (apply_tx st t2) t1).
Proof.
  intros Hne. unfold apply_tx, setPreferredNetwork.
  destruct (0 <? tx_network t1), (0 <? tx_network t2); cbn; try reflexivity.
  by apply insert_insert_ne.
Qed.

Lemma distinct_senders_commute_witness :
  (1%N : N) <> 2%N /\
  networkPreferences (apply_tx (apply_tx deployed (mkTx 1%N 5)) (mkTx 2%N 7)) =
    networkPreferences (apply_tx (apply_tx deployed (mkTx 2%N 7)) (mkTx 1%N 5)).
Proof.
  split; [discriminate |].
  apply (distinct_senders_commute (mkTx 1%N 5) (mkTx 2%N 7) deployed).
  discriminate.
Defined.

End ContractHistory.

(** ** Further properties of the client *)

Section ClientOperations.
Import Contract Client Scenario.

(** Unfold an operation of the client down to the world it computes. *)
Ltac run_ops :=
  cbv [issued payOnPreferedNetwork payAddress getPreferredNetwork getCurrentAddress
       switchToPreferredNetwork setPreferredNetwork payENSAddress
       payENSOnPreferedNetwork getPreferedNetworkFromENS
       resolveCurrentPreferredNetwork normalize
       wallet_getAddresses contract_read_getPreferredNetwork
       contract_write_setPreferredNetwork publicClient_getEnsAddress
       wallet_switchChain wallet_sendTransaction
       publicClient_waitForTransactionReceipt
       bind ret throw gets modify issue transport]; cbn.

(** Split on every answer of the transport, on the wallet's first
    account, on the name service's answer and on the range check of an
    argument. *)
Ltac split_answers w :=
  repeat (rewrite <- ?app_assoc; cbn;
          match goal with
          | |- context [match faults w ?t with _ => _ end] =>
              destruct (faults w t) eqn:?
          | |- context [match head ?t with _ => _ end] =>
              destruct (head t) eqn:?
          | |- context [match ens w !! ?n with _ => _ end] =>
              destruct (ens w !! n) eqn:?
          | |- context [if (0 <=? ?n) && (?n <=? ?m) then _ else _] =>
              destruct ((0 <=? n) && (n <=? m)) eqn:?
          | |- context [(?l ++ [?t]) !! N.to_nat (N.of_nat (length ?l))] =>
              rewrite (sent_lookup l t)
          end);
  rewrite <- ?app_assoc; cbn; rewrite ?drop_app_length.







(** X7. A [setPreferredNetwork] of the client that fails, for whatever reason,
    changes nothing but the record of the calls issued: the registry, the
    transactions sent, the wallet and the subscriptions are as before. *)
Theorem client_set_failure_changes_nothing
    (configuration : Configuration) (n : Z) (w : World) (e : Error) :
  fst (setPreferredNetwork configuration n w) = Err e ->
  snd (setPreferredNetwork configuration n w) =
    set_calls (calls w ++ issued (setPreferredNetwork configuration n) w) w.
Proof.
  run_ops. split_answers w; try (intros _; reflexivity).
  unfold Contract.setPreferredNetwork.
  destruct (0 <? n); cbn; rewrite <- ?app_assoc; cbn; rewrite ?drop_app_length;
    [discriminate | reflexivity].
Qed.

Lemma client_set_failure_changes_nothing_witness :
  fst (setPreferredNetwork no_callbacks 0 (world_of carol)) =
    Err (ContractRevert "Invalid network ID") /\
  registry (snd (setPreferredNetwork no_callbacks 0 (world_of carol))) = chosen.
Proof.
  split; [reflexivity |].
  rewrite (client_set_failure_changes_nothing no_callbacks 0 (world_of carol)
             (ContractRevert "Invalid network ID") eq_refl).
  reflexivity.
Defined.



(** X9. The lookups are read-only: [getPreferredNetwork],
    [getPreferedNetworkFromENS] and [resolveCurrentPreferredNetwork]
    leave the world as it was, but for the record of the calls they
    issued, whether they answer or fail. *)
Theorem lookups_change_nothing (a : address) (name : string) (w : World) :
  snd (getPreferredNetwork a w) =
    set_calls (calls w ++ issued (getPreferredNetwork a) w) w /\
  snd (getPreferedNetworkFromENS name w) =
    set_calls (calls w ++ issued (getPreferedNetworkFromENS name) w) w /\
  snd (resolveCurrentPreferredNetwork w) =
    set_calls (calls w ++ issued resolveCurrentPreferredNetwork w) w.
Proof.
  split; [| split]; run_ops; split_answers w; reflexivity.
Qed.

(** X10. [payAddress(to, v)] sends at most one transaction, from the wallet's
    first account, to [to] and of value [v], and touches neither the
    registry nor the wallet's network.  The transaction has been sent as
    soon as the receipt is asked for, also when that wait then fails; and
    on success the receipt is the one of that transaction. *)
Theorem payAddress_sends_at_most_once (to : address) (v : Z) (w : World) :
  registry (snd (payAddress to v w)) = registry w /\
  chainId (snd (payAddress to v w)) = chainId w /\
  (transactions (snd (payAddress to v w)) = transactions w \/
   exists sender,
     head (accounts w) = Some sender /\
     transactions (snd (payAddress to v w)) = transactions w ++ [Transfer sender to v]) /\
  ((3 <= length (issued (payAddress to v) w))%nat ->
   exists sender,
     head (accounts w) = Some sender /\
     transactions (snd (payAddress to v w)) = transactions w ++ [Transfer sender to v]) /\
  (forall r, fst (payAddress to v w) = Ok r ->
     exists sender,
       head (accounts w) = Some sender /\
       r = mkReceipt (N.of_nat (length (transactions w))) (Transfer sender to v)).
Proof.
  run_ops. split_answers w.
  all: repeat (split; [first [reflexivity | by left | right; eauto] |]).
  all: try (split; [cbn; lia |]); try (split; [eauto |]); try discriminate.
  all: try (intros r [= <-]; eauto).
Qed.


Lemma payAddress_sends_at_most_once_witness :
  fst (payAddress alice 7 (world_of bob)) = Ok (mkReceipt 0 (Transfer bob alice 7)) /\
  exists sender,
    head (accounts (world_of bob)) = Some sender /\
    mkReceipt 0 (Transfer bob alice 7) =
      mkReceipt (N.of_nat (length (transactions (world_of bob)))) (Transfer sender alice 7).
Proof.
  split; [reflexivity |].
  destruct (payAddress_sends_at_most_once alice 7 (world_of bob))
    as (_ & _ & _ & _ & Hok).
  apply Hok. reflexivity.
Defined.

(** X11. [payOnPreferedNetwork(A, v)] pays only after the switch, and does not
    switch back: if a transaction was sent, it is the single transfer of
    [v] to [A] and the wallet is on [Number] of [A]'s preference; once
    the payment has begun (three calls issued) the wallet stays on that
    network even when the payment then fails; when it has not begun,
    neither the wallet's network nor the transactions have changed.  The registry is
    never touched. *)
Theorem payOnPreferedNetwork_switch_then_pay (A : address) (v : Z) (w : World) :
  let preferred := Js.Number (Contract.getPreferredNetwork A (registry w)) in
  let w1 := snd (payOnPreferedNetwork A v w) in
  registry w1 = registry w /\
  (transactions w1 = transactions w \/
   chainId w1 = preferred /\
   exists sender,
     head (accounts w) = Some sender /\
     transactions w1 = transactions w ++ [Transfer sender A v]) /\
  ((3 <= length (issued (payOnPreferedNetwork A v) w))%nat -> chainId w1 = preferred) /\
  ((length (issued (payOnPreferedNetwork A v) w) < 3)%nat ->
     chainId w1 = chainId w /\ transactions w1 = transactions w).
Proof.
  run_ops. split_answers w.
  all: split; [reflexivity |].
  all: split; [first [by left | right; eauto] |].
  all: split; intros Hn; first [reflexivity | done | cbn in Hn; lia].
Qed.

Lemma payOnPreferedNetwork_switch_then_pay_witness :
  (3 <= length (issued (payOnPreferedNetwork alice 7) (world_of bob)))%nat /\
  chainId (snd (payOnPreferedNetwork alice 7 (world_of bob))) = 5.
Proof.
  split; [vm_compute; lia |].
  destruct (payOnPreferedNetwork_switch_then_pay alice 7 (world_of bob))
    as (_ & _ & Hswitched & _).
  apply Hswitched. vm_compute. lia.
Defined.

(** X12. The payments by name pay only the address the name resolves to:
    [payENSAddress] and [payENSOnPreferedNetwork] never touch the
    registry, and if a transaction was sent it is the single transfer of
    [v] from the wallet's first account to the address bound to the name,
    in the second case with the wallet on [Number] of that address's
    preference. *)
Theorem payments_by_name_pay_resolved (name : string) (v : Z) (w : World) :
  (registry (snd (payENSAddress name v w)) = registry w /\
   chainId (snd (payENSAddress name v w)) = chainId w /\
   (transactions (snd (payENSAddress name v w)) = transactions w \/
    exists a sender,
      ens w !! name = Some a /\
      head (accounts w) = Some sender /\
      transactions (snd (payENSAddress name v w)) =
        transactions w ++ [Transfer sender a v])) /\
  (registry (snd (payENSOnPreferedNetwork name v w)) = registry w /\
   (transactions (snd (payENSOnPreferedNetwork name v w)) = transactions w \/
    exists a sender,
      ens w !! name = Some a /\
      head (accounts w) = Some sender /\
      chainId (snd (payENSOnPreferedNetwork name v w)) =
        Js.Number (Contract.getPreferredNetwork a (registry w)) /\
      transactions (snd (payENSOnPreferedNetwork name v w)) =
        transactions w ++ [Transfer sender a v])).
Proof.
  split; run_ops; split_answers w.
  all: repeat (split; [reflexivity |]).
  all: first [by left | right; eexists _, _; eauto].
Qed.

(** X13. [switchToPreferredNetwork()] does not check that a preference is
    set: for a signer whose preference is unset, and a transport that
    fails nothing, it asks the wallet to switch to network [0] and
    succeeds. *)
Theorem switchToPreferredNetwork_unset (account : address) (w : World) :
  head (accounts w) = Some account ->
  Contract.getPreferredNetwork account (registry w) = 0 ->
  (forall t, faults w t = None) ->
  fst (switchToPreferredNetwork w) = Ok tt /\
  issued switchToPreferredNetwork w =
    [ wallet_getAddresses_;
      contract_read_getPreferredNetwork_ (Some account);
      wallet_switchChain_ 0 ] /\
  chainId (snd (switchToPreferredNetwork w)) = 0.
Proof.
  intros Ha Hunset Hf. revert Ha. run_ops. split_answers w; intros Ha.
  all: repeat match goal with
       | H : faults _ _ = Some _ |- _ => rewrite Hf in H; discriminate H
       end.
  all: try discriminate Ha.
  all: injection Ha as ->; rewrite Hunset in *.
  all: match goal with
       | H : _ && _ = false |- _ => vm_compute in H; discriminate H
       | _ => done
       end.
Qed.

Lemma switchToPreferredNetwork_unset_witness :
  head (accounts (world_of 99%N)) = Some 99%N /\
  Contract.getPreferredNetwork 99%N (registry (world_of 99%N)) = 0 /\
  chainId (snd (switchToPreferredNetwork (world_of 99%N))) = 0.
Proof.
  split; [reflexivity |]. split; [reflexivity |].
  apply (switchToPreferredNetwork_unset 99%N (world_of 99%N));
    [reflexivity | reflexivity | intros t; reflexivity].
Defined.

End ClientOperations.

(** ** Further properties of the subscriptions *)

Section Subscriptions.
Import Contract Client Scenario.

Lemma filter_keeps_all {A} (P : A -> Prop) `{!forall x, Decision (P x)} (l : list A) :
  (forall x, x ∈ l -> P x) -> filter P l = l.
Proof.
  induction l as [| x l IH]; intros Hall; [reflexivity |].
  rewrite filter_cons_True by (apply Hall; left).
  f_equal. apply IH. intros y Hy. apply Hall. by right.
Qed.

Lemma forEach_unwatch_world (ws : list nat) : forall w : World,
  forEach ws unwatch w =
    (Ok tt,
     set_subscriptions (filter (fun s => s ∉ ws) (subscriptions w))
       (set_calls (calls w ++ map unwatch_ ws) w)).
Proof.
  induction ws as [| h ws IH]; intros w.
  - destruct w. cbn. rewrite app_nil_r.
    rewrite filter_keeps_all by (intros; apply not_elem_of_nil). reflexivity.
  - change (forEach (h :: ws) unwatch w)
      with (forEach ws unwatch
              (set_subscriptions (filter (fun s => s <> h) (subscriptions w))
                 (set_calls (calls w ++ [unwatch_ h]) w))).
    rewrite IH. cbn. rewrite <- app_assoc. cbn.
    rewrite list_filter_filter.
    rewrite (list_filter_iff _ (fun s => s ∉ h :: ws)); [reflexivity |].
    intros s. rewrite elem_of_cons. tauto.
Qed.

(** X14. What [removeContractEventListeners()] does, in every world: it calls
    the cancellation function of each recorded subscription once, in the
    order they were recorded, and nothing else; the subscriptions left
    open are those it had not recorded, in their order; its own record is
    emptied; the registry, the wallet and the transactions are as
    before. *)
Theorem removeContractEventListeners_effect (w : World) :
  removeContractEventListeners w =
    (Ok tt,
     set_watchers []
       (set_subscriptions (filter (fun s => s ∉ watchers w) (subscriptions w))
          (set_calls (calls w ++ map unwatch_ (watchers w)) w))).
Proof.
  unfold removeContractEventListeners, bind, gets, modify.
  by rewrite forEach_unwatch_world.
Qed.

(** X15. Construction followed by [removeContractEventListeners()] leaves the
    open subscriptions as they were before the client existed, provided
    the subscription the client opens is a new one: the removal cancels
    exactly the subscription opened at construction, if one was. *)
Theorem construct_then_remove_restores (configuration : Configuration) (w : World) :
  opened w ∉ subscriptions w ->
  let constructed := snd (preferredNetworkRegistry configuration w) in
  let removed := snd (removeContractEventListeners constructed) in
  subscriptions removed = subscriptions w /\
  watchers removed = [] /\
  issued removeContractEventListeners constructed = map unwatch_ (watchers constructed) /\
  (length (watchers constructed) <= 1)%nat.
Proof.
  intros Hfresh. cbn zeta.
  rewrite removeContractEventListeners_effect.
  unfold issued. rewrite removeContractEventListeners_effect. cbn [fst snd].
  cbv [preferredNetworkRegistry startContractEventListeners
       publicClient_watchContractEvent bind modify issue ret].
  destruct (Js.strict_not_null _); cbn; rewrite ?drop_app_length.
  - split; [| repeat split; lia].
    rewrite filter_app, filter_keeps_all.
    + rewrite filter_singleton_False; [by rewrite app_nil_r | exact [] |].
      intros Hn. apply Hn. by left.
    + intros s Hs Hin. apply list_elem_of_singleton in Hin. by subst s.
  - split; [| repeat split; lia].
    apply filter_keeps_all. intros; apply not_elem_of_nil.
Qed.

Lemma construct_then_remove_restores_witness :
  (opened (world_of alice) ∉ subscriptions (world_of alice)) /\
  subscriptions
    (snd (removeContractEventListeners
            (snd (preferredNetworkRegistry log_callback (world_of alice))))) =
    subscriptions (world_of alice).
Proof.
  split; [apply not_elem_of_nil |].
  apply (construct_then_remove_restores log_callback (world_of alice)).
  apply not_elem_of_nil.
Defined.

(** X16. The two versions of the client construct alike whenever
    [onContractEvents] is given a value, a function or [null]: they
    differ only where it is left out. *)
Theorem constructions_agree_unless_undefined (cbs : Callbacks) (w : World) :
  onContractEvents cbs <> Js.undefined ->
  ClientV1.preferredNetworkRegistry cbs w =
    preferredNetworkRegistry {| callbacks := Js.defined cbs |} w.
Proof.
  intros Hgiven.
  cbv [ClientV1.preferredNetworkRegistry ClientV1.startContractEventListeners
       preferredNetworkRegistry startContractEventListeners Js.chain callbacks].
  by destruct (onContractEvents cbs).
Qed.

Lemma constructions_agree_unless_undefined_witness :
  Js.defined 7%nat <> (Js.undefined : Js.optional Callback) /\
  ClientV1.preferredNetworkRegistry
    (mkCallbacks Js.undefined Js.undefined Js.undefined (Js.defined 7%nat))
    (world_of alice) =
  preferredNetworkRegistry log_callback (world_of alice).
Proof.
  split; [discriminate |].
  apply (constructions_agree_unless_undefined
           (mkCallbacks Js.undefined Js.undefined Js.undefined (Js.defined 7%nat))
           (world_of alice)).
  discriminate.
Defined.

End Subscriptions.

(** ** How far [Number] can move a preference *)

Section NumberError.

(** X17. The id passed to the switch is never further from the stored preference
    than one part in [2^53] of it: for every preference [p >= 0],
    [|Number(p) - p| * 2^53 <= p]. *)
Theorem Number_relative_error (p : Z) :
  0 <= p -> Z.abs (Js.Number p - p) * 2 ^ 53 <= p.
Proof.
  intros Hp0.
  destruct (Z.le_gt_cases p (2 ^ 53)) as [Hsmall | Hlarge].
  { rewrite Number_small by lia. rewrite Z.sub_diag. cbn. lia. }
  assert (Hp : 2 ^ 53 <= p) by lia.
  destruct (Number_large p Hp) as (He & _ & _).
  set (e := Z.log2 p - 52) in *.
  unfold Js.Number. rewrite (Z.abs_eq p) by lia. fold e.
  destruct (e <=? 0) eqn:E; [apply Z.leb_le in E; lia |].
  rewrite Z.sgn_pos by lia.
  rewrite Z.shiftr_div_pow2, Z.land_ones, !Z.shiftl_mul_pow2 by lia.
  set (B := 2 ^ e). set (h := 2 ^ (e - 1)).
  assert (HB : B = 2 * h).
  { subst B h. replace e with (Z.succ (e - 1)) at 1 by lia.
    rewrite Z.pow_succ_r by lia. reflexivity. }
  assert (Hh : 0 < h) by (subst h; apply Z.pow_pos_nonneg; lia).
  assert (Hlow : 2 ^ 53 * h <= p).
  { pose proof (Z.log2_spec p ltac:(lia)) as [Hl _].
    replace (Z.log2 p) with (53 + (e - 1)) in Hl by (subst e; lia).
    rewrite Z.pow_add_r in Hl by lia. exact Hl. }
  pose proof (Z.div_mod p B ltac:(lia)) as Hdm.
  pose proof (Z.mod_pos_bound p B ltac:(lia)) as Hr.
  set (q := p / B) in *. set (r := p mod B) in *.
  assert (Herr : Z.abs (1 * (if (1 * h <? r) || (r =? 1 * h) && Z.odd q
                                then q + 1 else q) * B - p) <= h).
  { destruct (1 * h <? r) eqn:E1; cbn [orb].
    - apply Z.ltb_lt in E1. nia.
    - apply Z.ltb_ge in E1.
      destruct (r =? 1 * h) eqn:E2; cbn [andb].
      + apply Z.eqb_eq in E2. destruct (Z.odd q); nia.
      + nia. }
  nia.
Qed.

Lemma Number_relative_error_witness :
  0 <= 2 ^ 53 + 1 /\ Z.abs (Js.Number (2 ^ 53 + 1) - (2 ^ 53 + 1)) * 2 ^ 53 <= 2 ^ 53 + 1.
Proof.
  split; [discriminate |].
  apply (Number_relative_error (2 ^ 53 + 1)). discriminate.
Defined.

End NumberError.
